(** * plot.py: the results loader and the record queries it drives

    The script reads [results.cache] line by line, splits every line on
    whitespace and turns the lines that pass its length guard into [entry]
    dictionaries appended to [results] (src/plot.py, lines 63-90).  The
    queries it then runs on [results] ([filter_extra], the [max.]
    conditions) live in the module [common_plot], which the script
    imports. *)

From Stdlib Require Import ZArith List String Ascii Lia DecimalString.
From Stdlib Require Import QArith Qpower.
From Stdlib Require Import SpecFloat PrimFloat FloatOps.
From stdpp Require Import gmap strings list.

Set Default Proof Using "Type".
Open Scope string_scope.
Open Scope list_scope.

(** ** Python values and builtins the script uses *)

Module Py.

(** The exceptions that can escape the loop body. *)
Inductive exn : Type :=
  | IndexError
  | ValueError
  | KeyError
  | TypeError
  | OtherError (name : string).

(** A computation that returns a value or raises. *)
Inductive result (A : Type) : Type :=
  | Ok (a : A)
  | Raise (e : exn).
Arguments Ok {A} a.
Arguments Raise {A} e.

#[global] Instance result_ret : MRet result := fun A a => Ok a.
#[global] Instance result_bind : MBind result := fun A B k m =>
  match m with
  | Ok a => k a
  | Raise e => Raise e
  end.

Definition raises {A} (m : result A) : Prop := exists e, m = Raise e.

(** [str.isspace] on one character.  Characters are the code points below
    256: the ASCII white space 9-13, 28-32, and U+0085, U+00A0. *)
Definition isspace (c : ascii) : bool :=
  let n := nat_of_ascii c in
  (Nat.leb 9 n && Nat.leb n 13) || (Nat.leb 28 n && Nat.leb n 32)
  || Nat.eqb n 133 || Nat.eqb n 160.

(** [line.split()]: the maximal runs of characters that are not white
    space, in order; no empty field.  [cur] is the field being read. *)
Fixpoint split_from (cur : string) (s : string) : list string :=
  match s with
  | EmptyString => if String.eqb cur "" then [] else [cur]
  | String c rest =>
      if isspace c
      then (if String.eqb cur "" then [] else [cur]) ++ split_from "" rest
      else split_from (cur +:+ String c "") rest
  end.

Definition split (line : string) : list string := split_from "" line.

(** No character of [w] is white space. *)
Fixpoint no_space (w : string) : bool :=
  match w with
  | EmptyString => true
  | String c rest => negb (isspace c) && no_space rest
  end.

(** Every character of [s] is white space: a blank line. *)
Fixpoint all_space (s : string) : bool :=
  match s with
  | EmptyString => true
  | String c rest => isspace c && all_space rest
  end.

(** The fields written on one line, a single space between two of
    them. *)
Fixpoint unwords (fields : list string) : string :=
  match fields with
  | [] => ""
  | [w] => w
  | w :: rest => w +:+ " " +:+ unwords rest
  end.

(** [parts[i]] for a constant index [i >= 0]. *)
Definition getitem (parts : list string) (i : nat) : result string :=
  match parts !! i with
  | Some s => Ok s
  | None => Raise IndexError
  end.

End Py.
Export Py.

(** ** The loader (src/plot.py, lines 63-90) *)

Module Loader.

(** What an [entry] dictionary holds under a key: the parameter mapping
    under ["params"], a float under every other key. *)
Inductive pyval (Value : Type) : Type :=
  | PyParams (p : gmap string Value)
  | PyFloat (f : float).
Arguments PyParams {Value} p.
Arguments PyFloat {Value} f.

Section Load.
Context {Value : Type}.

(** [common_plot.parse_parameters], imported by the script: it returns
    the parameter mapping of a token or raises. *)
Variable parse_parameters : string -> result (gmap string Value).

(** The builtin [float] on a string: the parsed number, or [None] where
    it raises [ValueError]. *)
Variable py_float : string -> option float.

Abbreviation entry := (gmap string (pyval Value)).

Definition to_float (s : string) : result float :=
  match py_float s with
  | Some f => Ok f
  | None => Raise ValueError
  end.

(** [float(parts[i])]: the index is read first, then the literal. *)
Definition float_at (parts : list string) (i : nat) : result float :=
  getitem parts i ≫= to_float.

(** [entry[key]] read as a float operand of [+]. *)
Definition getfloat (e : entry) (key : string) : result float :=
  match e !! key with
  | Some (PyFloat f) => Ok f
  | Some (PyParams _) => Raise TypeError
  | None => Raise KeyError
  end.

(** The body of the [for] loop: [Ok None] is [continue], [Ok (Some e)]
    is the entry handed to [results.append]. *)
Definition load_line (line : string) : result (option entry) :=
  let parts := split line in
  if Nat.ltb 9 (length parts) then
    let e : entry := ∅ in
    v ← getitem parts 0 ≫= parse_parameters;
    let e := <["params" := PyParams v]> e in
    v ← float_at parts 5;
    let e := <["efficiency" := PyFloat v]> e in
    v ← float_at parts 6;
    let e := <["safety" := PyFloat v]> e in
    v ← float_at parts 7;
    let e := <["ud" := PyFloat v]> e in
    v ← float_at parts 8;
    let e := <["cc" := PyFloat v]> e in
    v ← float_at parts 9;
    let e := <["mean_ts" := PyFloat v]> e in
    v ← float_at parts 10;
    let e := <["95_ts" := PyFloat v]> e in
    v ← float_at parts 11;
    let e := <["997_ts" := PyFloat v]> e in
    v ← float_at parts 12;
    let e := <["max_ts" := PyFloat v]> e in
    v ← float_at parts 13;
    let e := <["stddev_ts" := PyFloat v]> e in
    v ← float_at parts 1;
    let e := <["cost.efficiency" := PyFloat v]> e in
    v ← float_at parts 2;
    let e := <["cost.safety" := PyFloat v]> e in
    v ← float_at parts 3;
    let e := <["cost.accel" := PyFloat v]> e in
    v ← float_at parts 4;
    let e := <["cost.steer" := PyFloat v]> e in
    a ← getfloat e "cost.efficiency";
    b ← getfloat e "cost.safety";
    c ← getfloat e "cost.accel";
    d ← getfloat e "cost.steer";
    let e := <["cost" := PyFloat (a + b + c + d)%float]> e in
    mret (Some e)
  else mret None.

(** The loop over the lines of the file.  [results] is the list built so
    far; an exception leaves the loop with the list as it stood. *)
Fixpoint load (lines : list string) (results : list entry)
  : list entry * option exn :=
  match lines with
  | [] => (results, None)
  | line :: rest =>
      match load_line line with
      | Raise e => (results, Some e)
      | Ok None => load rest results
      | Ok (Some e) => load rest (results ++ [e])
      end
  end.

(** The dictionary the body has built when it reaches [results.append]:
    [p] is the parameter mapping, [f1] to [f13] the floats of the fields
    1 to 13. *)
Definition entry_of (p : gmap string Value)
    (f1 f2 f3 f4 f5 f6 f7 f8 f9 f10 f11 f12 f13 : float) : entry :=
  <["cost" := PyFloat (f1 + f2 + f3 + f4)%float]>
  (<["cost.steer" := PyFloat f4]>
  (<["cost.accel" := PyFloat f3]>
  (<["cost.safety" := PyFloat f2]>
  (<["cost.efficiency" := PyFloat f1]>
  (<["stddev_ts" := PyFloat f13]>
  (<["max_ts" := PyFloat f12]>
  (<["997_ts" := PyFloat f11]>
  (<["95_ts" := PyFloat f10]>
  (<["mean_ts" := PyFloat f9]>
  (<["cc" := PyFloat f8]>
  (<["ud" := PyFloat f7]>
  (<["safety" := PyFloat f6]>
  (<["efficiency" := PyFloat f5]>
  (<["params" := PyParams p]> ∅)))))))))))))).

Definition is_ok {A} (m : result A) : bool :=
  match m with
  | Ok _ => true
  | Raise _ => false
  end.

(** A well-formed cache line: at least 14 fields, a token that
    [parse_parameters] accepts, and float literals in the fields 1 to
    13. *)
Definition well_formed (line : string) : bool :=
  let parts := split line in
  Nat.ltb 13 (length parts)
  && is_ok (getitem parts 0 ≫= parse_parameters)
  && forallb (fun i => is_ok (float_at parts i)) (seq 1 13).

(** Field [i] of the line holds the float stored under [key]. *)
Definition field_of (e : entry) (key : string) (line : string) (i : nat)
    : Prop :=
  exists s f,
    split line !! i = Some s /\ py_float s = Some f
    /\ e !! key = Some (PyFloat f).

(** The cost stored in [e] is the sum of its four components, added
    left to right. *)
Definition cost_is_sum (e : entry) : Prop :=
  exists a b c d,
    e !! "cost.efficiency" = Some (PyFloat a)
    /\ e !! "cost.safety" = Some (PyFloat b)
    /\ e !! "cost.accel" = Some (PyFloat c)
    /\ e !! "cost.steer" = Some (PyFloat d)
    /\ e !! "cost" = Some (PyFloat (a + b + c + d)%float).

(** The lines the loop reads: all of them up to the first that raises. *)
Fixpoint scanned (lines : list string) : list string :=
  match lines with
  | [] => []
  | line :: rest =>
      if is_ok (load_line line) then line :: scanned rest else []
  end.

End Load.

(** The fields the body hands to [float], in the order it reads them
    (lines 71-84). *)
Definition float_reads : list nat := [5; 6; 7; 8; 9; 10; 11; 12; 13; 1; 2; 3; 4].

(** The keys the body stores a float under (lines 71-86). *)
Definition float_keys : list string :=
  ["efficiency"; "safety"; "ud"; "cc"; "mean_ts"; "95_ts"; "997_ts";
   "max_ts"; "stddev_ts"; "cost.efficiency"; "cost.safety"; "cost.accel";
   "cost.steer"; "cost"].

End Loader.
Export Loader.

(** ** The tables of the script (src/plot.py, lines 5-36 and 106-108) *)

Module Script.

(** The assignments [t10s[key] = label] of lines 6 to 36, in their
    order; the key [None] is Python's [None]. *)
Definition t10s_assignments : list (option string * string) :=
  [(Some "discount_factor", "Discount Factor");
   (Some "safety", "Proportion unsafe");
   (Some "cost.safety", "Safety cost");
   (Some "cost", "Cost");
   (Some "efficiency", "Efficiency");
   (Some "ud", "Uncomfortable decelerations");
   (Some "cc", "Curvature change");
   (Some "tree", "Tree");
   (Some "mpdm", "MPDM");
   (Some "eudm", "EUDM");
   (Some "mcts", "PTDM");
   (Some "method", "Method");
   (Some "false", "Normal");
   (Some "true", "CFB");
   (Some "use_cfb", "CFB");
   (Some "seconds", "Computation time (s)");
   (Some "997_ts", "99.7% Computation time (s)");
   (Some "95_ts", "95% Computation time (s)");
   (Some "mean_ts", "Mean computation time (s)");
   (Some "search_depth", "Search depth");
   (Some "samples_n", "# Samples");
   (Some "bound_mode", "UCB expected-cost rule");
   (Some "final_choice_mode", "Final choice expected-cost rule");
   (Some "selection_mode", "UCB variation");
   (Some "normal", "Normal");
   (Some "lower_bound", "Using lower bound");
   (Some "bubble_best", "Using bubble-best");
   (Some "marginal", "Using marginal action costs");
   (Some "ucb_const", "UCB constant factor");
   (Some "prioritize_worst_particles_z",
      "Prioritize worst particles with z-scores above");
   (None, "Average") ].

(** [d[key] = label]. *)
Definition setitem (d : gmap (option string) string)
    (a : option string * string) : gmap (option string) string :=
  <[a.1 := a.2]> d.

(** The dictionary [t10s] once the assignments are done. *)
Definition t10s : gmap (option string) string :=
  fold_left setitem t10s_assignments ∅.

Definition plot_metrics : list string := ["cost"; "cost.safety"; "efficiency"].

Definition evaluate_metrics : list string :=
  ["cost"; "safety"; "efficiency"; "cost.efficiency"; "cost.safety";
   "cost.accel"; "cost.steer"; "seconds"].

End Script.
Export Script.

(** ** The record queries of [common_plot]

    [plot.py] imports [filter_extra] and writes conditions such as
    [("max.rng_seed", 2047)]; the code that checks them is in the module
    [common_plot], which is not among the sources.  It is modelled here
    from section 4.2 of the specification. *)

Module CommonPlot.

Section Queries.
Context {Value : Type}.

(** Modelled from the spec: the numeric comparison [stored <= bound] of a
    [max.] condition ([common_plot] is missing); [None] when the two
    values are not comparable. *)
Variable num_le : Value -> Value -> option bool.

(** Modelled from the spec: the equality of a plain condition, on the
    canonicalized forms of the stored and the expected value
    ([common_plot] is missing). *)
Variable canon_eqb : Value -> Value -> bool.

Abbreviation entry := (gmap string (pyval Value)).
Abbreviation condition := (string * Value)%type.

(** [record["params"]]. *)
Definition params_of (r : entry) : gmap string Value :=
  match r !! "params" with
  | Some (PyParams p) => p
  | _ => ∅
  end.

(** [key] without the prefix [p], when it starts with it. *)
Fixpoint strip_prefix (p key : string) : option string :=
  match p, key with
  | EmptyString, _ => Some key
  | String a p', String b key' =>
      if Ascii.eqb a b then strip_prefix p' key' else None
  | String _ _, EmptyString => None
  end.

(** Modelled from the spec: one [(key, expected)] pair of section 4.2
    ([common_plot] is missing).  A key that starts with [max.] is
    stripped and bounds the stored value; any other key asks for
    equality.  A missing key and values that are not comparable fail the
    pair. *)
Definition matches_one (r : entry) (c : condition) : bool :=
  let '(key, expected) := c in
  match strip_prefix "max." key with
  | Some inner_key =>
      match params_of r !! inner_key with
      | Some v =>
          match num_le v expected with
          | Some b => b
          | None => false
          end
      | None => false
      end
  | None =>
      match params_of r !! key with
      | Some v => canon_eqb v expected
      | None => false
      end
  end.

(** Modelled from the spec: [matches(record, conditions)] of section 4.2
    ([common_plot] is missing): all pairs must hold, and the first
    failing pair ends the check. *)
Fixpoint matches (r : entry) (conditions : list condition) : bool :=
  match conditions with
  | [] => true
  | c :: rest => if matches_one r c then matches r rest else false
  end.

(** The scan of [filter]: [out] collects the matches met so far. *)
Fixpoint filter_loop (records : list entry) (conditions : list condition)
    (out : list entry) : list entry :=
  match records with
  | [] => out
  | r :: rest =>
      filter_loop rest conditions
        (if matches r conditions then out ++ [r] else out)
  end.

(** Modelled from the spec: the bulk operation [filter(records,
    conditions)] of section 4.2, [filter_extra] in the script
    ([common_plot] is missing). *)
Definition filter_extra (records : list entry)
    (conditions : list condition) : list entry :=
  filter_loop records conditions [].

End Queries.
End CommonPlot.
Export CommonPlot.

(** ** Parameter values and their numeric comparison *)

Module Values.

(** Modelled from the spec: a parameter value is a string, an integer or
    a float (section 3; [common_plot] is missing). *)
Inductive value : Type :=
  | VStr (s : string)
  | VInt (n : Z)
  | VFloat (f : float).

(** What a numeric value is worth: not a number, an infinity, or the
    rational [m * 2^e]. *)
Inductive number : Type :=
  | NotANumber
  | Infinite (negative : bool)
  | Dyadic (m e : Z).

Definition number_of_float (f : float) : number :=
  match Prim2SF f with
  | S754_nan => NotANumber
  | S754_infinity s => Infinite s
  | S754_zero _ => Dyadic 0 0
  | S754_finite s m e => Dyadic (if s then Z.neg m else Z.pos m) e
  end.

(** A string is no number. *)
Definition number_of (v : value) : option number :=
  match v with
  | VStr _ => None
  | VInt n => Some (Dyadic n 0)
  | VFloat f => Some (number_of_float f)
  end.

(** The rational [m * 2^e]. *)
Definition Qval (m e : Z) : Q := (inject_Z m * 2 ^ e)%Q.

(** The order of the numbers: that of the rationals, with the two
    infinities at its ends; not-a-number is at most nothing and nothing
    is at most it. *)
Definition number_le (a b : number) : Prop :=
  match a, b with
  | NotANumber, _ | _, NotANumber => False
  | Infinite true, _ | _, Infinite false => True
  | Infinite false, _ | _, Infinite true => False
  | Dyadic m1 e1, Dyadic m2 e2 => (Qval m1 e1 <= Qval m2 e2)%Q
  end.

(** [m1 * 2^e1 <= m2 * 2^e2], on integers: both sides are scaled by the
    smaller exponent. *)
Definition dyadic_leb (m1 e1 m2 e2 : Z) : bool :=
  let k := Z.min e1 e2 in
  (m1 * 2 ^ (e1 - k) <=? m2 * 2 ^ (e2 - k))%Z.

Definition number_leb (a b : number) : bool :=
  match a, b with
  | NotANumber, _ | _, NotANumber => false
  | Infinite true, _ | _, Infinite false => true
  | Infinite false, _ | _, Infinite true => false
  | Dyadic m1 e1, Dyadic m2 e2 => dyadic_leb m1 e1 m2 e2
  end.

(** Modelled from the spec: the numeric comparison [stored <= bound] of
    a [max.] condition (section 4.2; [common_plot] is missing).  Integers
    and floats compare by their exact values; a string is comparable to
    nothing. *)
Definition num_le (stored bound : value) : option bool :=
  match number_of stored, number_of bound with
  | Some a, Some b => Some (number_leb a b)
  | _, _ => None
  end.

End Values.
Export Values.

(** ** Stand-ins for the closed examples

    [decimal_float] is the builtin [float] on the literals
    [sign? digit+ (. digit+)?], rounded to the nearest double; every
    other string is refused here.  [keep_token] stands in for
    [parse_parameters]: it never raises and files the token under one
    key.  [int_le] and [canon_eqb] are instances of what the queries
    take as given. *)

Module Sample.

Inductive value : Type :=
  | VStr (s : string)
  | VInt (n : Z).

Definition digit (c : ascii) : option Z :=
  let n := nat_of_ascii c in
  if Nat.leb 48 n && Nat.leb n 57 then Some (Z.of_nat (n - 48)) else None.

(** The digits of [s] read after [acc], with how many were read. *)
Fixpoint digits (s : string) (acc : Z) (n : nat) : option (Z * nat) :=
  match s with
  | EmptyString => Some (acc, n)
  | String c rest =>
      match digit c with
      | Some d => digits rest (10 * acc + d)%Z (S n)
      | None => None
      end
  end.

(** [s] cut at its first dot. *)
Fixpoint cut_dot (s : string) : string * option string :=
  match s with
  | EmptyString => ("", None)
  | String c rest =>
      if Ascii.eqb c "." then ("", Some rest)
      else let '(a, b) := cut_dot rest in (String c a, b)
  end.

(** [m / 10^k] with sign [neg], rounded to nearest even. *)
Definition round_decimal (neg : bool) (m : Z) (k : nat) : float :=
  match m with
  | Zpos _ =>
      let '(q, e, l) := SFdiv_core_binary prec emax m 0 (10 ^ Z.of_nat k) 0 in
      SF2Prim (binary_round_aux prec emax neg q e l)
  | _ => SF2Prim (S754_zero neg)
  end.

Definition unsigned_decimal (neg : bool) (s : string) : option float :=
  let '(int_part, frac) := cut_dot s in
  match digits int_part 0 0 with
  | Some (m, S _) =>
      match frac with
      | None => Some (round_decimal neg m 0)
      | Some f =>
          match digits f m 0 with
          | Some (m', S k) => Some (round_decimal neg m' (S k))
          | _ => None
          end
      end
  | _ => None
  end.

Definition decimal_float (s : string) : option float :=
  match s with
  | String "-" rest => unsigned_decimal true rest
  | String "+" rest => unsigned_decimal false rest
  | _ => unsigned_decimal false s
  end.

Definition keep_token (token : string) : result (gmap string value) :=
  Ok {[ "token" := VStr token ]}.

(** Integers compare; a string is comparable to nothing. *)
Definition int_le (stored bound : value) : option bool :=
  match stored, bound with
  | VInt a, VInt b => Some (Z.leb a b)
  | _, _ => None
  end.

(** A number and its decimal text are the same value. *)
Definition canon (v : value) : string :=
  match v with
  | VStr s => s
  | VInt n => NilEmpty.string_of_int (Z.to_int n)
  end.

Definition canon_eqb (a b : value) : bool := String.eqb (canon a) (canon b).

(** Lines of a cache file, each with the newline that ends it. *)
Definition nl : string := String (ascii_of_nat 10) "".

Definition good1 : string :=
  ",method=mcts,use_cfb=false,samples_n=8,rng_seed=5, 427.5 12.25 3 0.5 6.206 0.003439 1 2 0.01 0.02 0.03 0.04 0.005"
  +:+ nl.

Definition good2 : string :=
  ",method=eudm,use_cfb=true,samples_n=8,rng_seed=6, 451.75 10 2.5 0.25 6.178 0.006107 0 3 0.02 0.03 0.04 0.05 0.006"
  +:+ nl.

(** A partial write: 8 fields. *)
Definition short8 : string :=
  ",method=mcts,use_cfb=false,samples_n=8,rng_seed=7, 430 11 3 0.5 6.2 0.003 1"
  +:+ nl.

(** The first ten fields only. *)
Definition short10 : string :=
  ",method=mcts,use_cfb=false,samples_n=8,rng_seed=8, 430 11 3 0.5 6.2 0.003 1 2 0.01"
  +:+ nl.

(** Fourteen fields, the sixth of them no number. *)
Definition bad_float : string :=
  ",method=mcts,use_cfb=false,samples_n=8,rng_seed=9, 430 11 3 0.5 abc 0.003 1 2 0.01 0.02 0.03 0.04 0.005"
  +:+ nl.

(** [good1] with two more fields at its end. *)
Definition good1_more : string :=
  ",method=mcts,use_cfb=false,samples_n=8,rng_seed=5, 427.5 12.25 3 0.5 6.206 0.003439 1 2 0.01 0.02 0.03 0.04 0.005 17 note"
  +:+ nl.

(** A blank line: a space, a tab, the newline. *)
Definition blank : string := String " " (String (ascii_of_nat 9) nl).

(** A record with a seed and nothing else. *)
Definition seeded (seed : Values.value) : gmap string (pyval Values.value) :=
  <["params" := PyParams {[ "rng_seed" := seed ]}]> ∅.

(** Records as the queries see them. *)
Definition record (method : string) (rng_seed : value) (cost safety : float)
    : gmap string (pyval value) :=
  <["safety" := PyFloat safety]>
  (<["cost" := PyFloat cost]>
  (<["params" :=
      PyParams (<["rng_seed" := rng_seed]> {[ "method" := VStr method ]})]> ∅)).

Definition records : list (gmap string (pyval value)) :=
  [ record "fixed" (VInt 5) 10 0.5;
    record "mpdm" (VInt 6) 20 0.25;
    record "fixed" (VInt 4000) 30 0.125;
    record "fixed" (VStr "seven") 40 0 ].

End Sample.

(** * Properties of [split] *)

Lemma no_space_snoc w c :
  no_space (w +:+ String c "") = no_space w && negb (isspace c).
Proof.
  induction w as [|a w IH].
  - change ("" +:+ String c "") with (String c ""). cbn [no_space].
    by rewrite andb_true_r.
  - change (String a w +:+ String c "") with (String a (w +:+ String c "")).
    cbn [no_space]. rewrite IH. by rewrite andb_assoc.
Qed.

Lemma split_from_fields cur s :
  no_space cur = true ->
  Forall (fun w => w <> "" /\ no_space w = true) (split_from cur s).
Proof.
  revert cur. induction s as [|c rest IH]; intros cur Hcur; cbn [split_from].
  - destruct (String.eqb_spec cur ""); [constructor | by repeat constructor].
  - destruct (isspace c) eqn:Hc.
    + apply Forall_app. split; [|by apply IH].
      destruct (String.eqb_spec cur ""); [constructor | by repeat constructor].
    + apply IH. rewrite no_space_snoc, Hcur, Hc. reflexivity.
Qed.

(** The fields of a line are not empty and hold no white space. *)
Lemma split_fields line :
  Forall (fun w => w <> "" /\ no_space w = true) (split line).
Proof. by apply split_from_fields. Qed.

Lemma append_empty_r (s : string) : s +:+ "" = s.
Proof.
  induction s as [|a s IH]; [reflexivity|].
  change (String a s +:+ "") with (String a (s +:+ "")). by rewrite IH.
Qed.

Lemma append_assoc (a b c : string) : (a +:+ b) +:+ c = a +:+ (b +:+ c).
Proof.
  induction a as [|x a IH]; [reflexivity|].
  change (String x a +:+ b) with (String x (a +:+ b)).
  change (String x (a +:+ b) +:+ c) with (String x ((a +:+ b) +:+ c)).
  change (String x a +:+ (b +:+ c)) with (String x (a +:+ (b +:+ c))).
  by rewrite IH.
Qed.

(** A run without white space only extends the field being read. *)
Lemma split_from_word cur w rest :
  no_space w = true -> split_from cur (w +:+ rest) = split_from (cur +:+ w) rest.
Proof.
  revert cur. induction w as [|a w IH]; intros cur Hw.
  - by rewrite append_empty_r.
  - cbn [no_space] in Hw. apply andb_true_iff in Hw as [Ha Hw].
    apply negb_true_iff in Ha.
    change (String a w +:+ rest) with (String a (w +:+ rest)).
    cbn [split_from]. rewrite Ha, (IH _ Hw), append_assoc. reflexivity.
Qed.

(** White space alone only closes the field being read. *)
Lemma split_from_blank cur s :
  all_space s = true ->
  split_from cur s = if String.eqb cur "" then [] else [cur].
Proof.
  revert cur. induction s as [|c s IH]; intros cur Hs; [reflexivity|].
  cbn [all_space] in Hs. apply andb_true_iff in Hs as [Hc Hs].
  cbn [split_from]. rewrite Hc, (IH "" Hs). cbn. by rewrite app_nil_r.
Qed.

Lemma split_blank s : all_space s = true -> split s = [].
Proof. intros Hs. unfold split. by rewrite split_from_blank. Qed.

(** X8: fields that are not empty and hold no white space, written on
    one line with single spaces between them and any white space (a
    newline, nothing) after the last, are read back by [split] as they
    were written. *)
Theorem split_unwords fields tail :
  Forall (fun w => w <> "" /\ no_space w = true) fields ->
  all_space tail = true ->
  split (unwords fields +:+ tail) = fields.
Proof.
  intros Hfields Htail. unfold split.
  induction Hfields as [|w rest [Hne Hw] Hrest IH].
  - by apply split_from_blank.
  - destruct rest as [|w' rest].
    + cbn [unwords]. rewrite (split_from_word _ _ _ Hw).
      rewrite split_from_blank by exact Htail.
      change ("" +:+ w) with w. by destruct (String.eqb_spec w "").
    + change (unwords (w :: w' :: rest))
        with (w +:+ " " +:+ unwords (w' :: rest)).
      rewrite !append_assoc, (split_from_word _ _ _ Hw).
      change ("" +:+ w) with w.
      change (" " +:+ (unwords (w' :: rest) +:+ tail))
        with (String " " (unwords (w' :: rest) +:+ tail)).
      cbn [split_from]. change (isspace " ") with true. cbn match.
      rewrite IH. by destruct (String.eqb_spec w "").
Qed.

(** * Properties of the loader *)

Section LoaderTheory.
Context {Value : Type}.
Variable parse_parameters : string -> result (gmap string Value).
Variable py_float : string -> option float.

Abbreviation entry := (gmap string (pyval Value)).
Abbreviation to_float := (Loader.to_float py_float).
Abbreviation float_at := (Loader.float_at py_float).
Abbreviation load_line := (Loader.load_line parse_parameters py_float).
Abbreviation load := (Loader.load parse_parameters py_float).
Abbreviation well_formed := (Loader.well_formed parse_parameters py_float).
Abbreviation field_of := (Loader.field_of py_float).
Abbreviation scanned := (Loader.scanned parse_parameters py_float).

Lemma bind_Ok {A B} (a : A) (k : A -> result B) : Ok a ≫= k = k a.
Proof. reflexivity. Qed.

Lemma bind_Raise {A B} (e : exn) (k : A -> result B) : Raise e ≫= k = Raise e.
Proof. reflexivity. Qed.

Lemma getfloat_insert_eq (e : entry) key f :
  getfloat (<[key := PyFloat f]> e) key = Ok f.
Proof. unfold getfloat. by rewrite lookup_insert_eq. Qed.

Lemma getfloat_insert_ne (e : entry) key key' v :
  key <> key' -> getfloat (<[key := v]> e) key' = getfloat e key'.
Proof. intros Hne. unfold getfloat. by rewrite lookup_insert_ne. Qed.

Ltac getfloats :=
  repeat first
    [ rewrite getfloat_insert_eq
    | rewrite getfloat_insert_ne by discriminate
    | rewrite bind_Ok ].

Ltac lookups :=
  repeat first
    [ rewrite lookup_insert_eq
    | rewrite lookup_insert_ne by discriminate ].

(** The loop body without its local variable: the reads in the order of
    the source, then the dictionary they fill. *)
Lemma load_line_unfold line :
  load_line line =
  let parts := split line in
  if Nat.ltb 9 (length parts) then
    p ← getitem parts 0 ≫= parse_parameters;
    f5 ← float_at parts 5;
    f6 ← float_at parts 6;
    f7 ← float_at parts 7;
    f8 ← float_at parts 8;
    f9 ← float_at parts 9;
    f10 ← float_at parts 10;
    f11 ← float_at parts 11;
    f12 ← float_at parts 12;
    f13 ← float_at parts 13;
    f1 ← float_at parts 1;
    f2 ← float_at parts 2;
    f3 ← float_at parts 3;
    f4 ← float_at parts 4;
    Ok (Some (entry_of p f1 f2 f3 f4 f5 f6 f7 f8 f9 f10 f11 f12 f13))
  else Ok None.
Proof.
  unfold Loader.load_line. cbv zeta.
  destruct (Nat.ltb 9 (length (split line))); [|reflexivity].
  destruct (getitem (split line) 0 ≫= parse_parameters) as [p|]; [|reflexivity].
  rewrite !bind_Ok.
  repeat match goal with
  | |- (?m ≫= _) = (?m ≫= _) => destruct m; [rewrite !bind_Ok | reflexivity]
  end.
  getfloats. reflexivity.
Qed.

Lemma float_at_Ok parts i f :
  float_at parts i = Ok f <->
  exists s, parts !! i = Some s /\ py_float s = Some f.
Proof.
  unfold Loader.float_at, getitem, Loader.to_float.
  destruct (parts !! i) as [s|]; cbn.
  - destruct (py_float s) as [g|] eqn:E; split.
    + intros [= <-]. eauto.
    + intros (s' & [= <-] & Hs). congruence.
    + discriminate.
    + intros (s' & [= <-] & Hs). congruence.
  - split; [discriminate | intros (s & Hs & _); discriminate].
Qed.

Lemma float_at_Raise parts i e :
  float_at parts i = Raise e <->
  (parts !! i = None /\ e = IndexError)
  \/ (exists s, parts !! i = Some s /\ py_float s = None /\ e = ValueError).
Proof.
  unfold Loader.float_at, getitem, Loader.to_float.
  destruct (parts !! i) as [s|]; cbn.
  - destruct (py_float s) as [g|] eqn:E; split.
    + discriminate.
    + intros [[? _] | (s' & [= <-] & Hs & _)]; congruence.
    + intros [= <-]. right. eauto.
    + intros [[? _] | (s' & _ & _ & ->)]; congruence.
  - split.
    + intros [= <-]. by left.
    + intros [[_ ->] | (s & ? & _)]; congruence.
Qed.

Lemma is_ok_true {A} (m : result A) : is_ok m = true <-> exists a, m = Ok a.
Proof.
  destruct m as [x|x]; cbn; split; eauto; try discriminate.
  intros [y Hy]. discriminate.
Qed.

Lemma is_ok_false {A} (m : result A) : is_ok m = false <-> raises m.
Proof.
  unfold raises. destruct m as [x|x]; cbn; split; eauto; try discriminate.
  intros [y Hy]. discriminate.
Qed.

(** The guard alone decides whether a line is skipped. *)
Lemma load_line_None line :
  load_line line = Ok None <-> length (split line) <= 9.
Proof.
  rewrite load_line_unfold. cbv zeta.
  destruct (Nat.ltb 9 (length (split line))) eqn:G.
  - apply Nat.ltb_lt in G. split; [|lia].
    intros H. exfalso. revert H.
    destruct (getitem (split line) 0 ≫= parse_parameters); [|discriminate].
    rewrite bind_Ok.
    repeat match goal with
    | |- (?m ≫= _) = _ -> _ => destruct m; [rewrite bind_Ok | discriminate]
    end.
    discriminate.
  - apply Nat.ltb_ge in G. split; [lia | reflexivity].
Qed.

(** What a line that yields a record has read. *)
Lemma load_line_Some line e :
  load_line line = Ok (Some e) ->
  let parts := split line in
  exists p f1 f2 f3 f4 f5 f6 f7 f8 f9 f10 f11 f12 f13,
    getitem parts 0 ≫= parse_parameters = Ok p
    /\ float_at parts 1 = Ok f1 /\ float_at parts 2 = Ok f2
    /\ float_at parts 3 = Ok f3 /\ float_at parts 4 = Ok f4
    /\ float_at parts 5 = Ok f5 /\ float_at parts 6 = Ok f6
    /\ float_at parts 7 = Ok f7 /\ float_at parts 8 = Ok f8
    /\ float_at parts 9 = Ok f9 /\ float_at parts 10 = Ok f10
    /\ float_at parts 11 = Ok f11 /\ float_at parts 12 = Ok f12
    /\ float_at parts 13 = Ok f13
    /\ e = entry_of p f1 f2 f3 f4 f5 f6 f7 f8 f9 f10 f11 f12 f13.
Proof.
  rewrite load_line_unfold. cbv zeta.
  destruct (Nat.ltb 9 (length (split line))); [|discriminate].
  destruct (getitem (split line) 0 ≫= parse_parameters) as [p|]; [|discriminate].
  rewrite bind_Ok.
  repeat match goal with
  | |- (?m ≫= _) = _ -> _ =>
      destruct m as [?f|] eqn:?; [rewrite bind_Ok | discriminate]
  end.
  intros [= <-]. do 14 eexists. repeat split; reflexivity.
Qed.

(** What a line that raises has met: the exception of
    [parse_parameters], or that of the first float read that fails. *)
Lemma load_line_Raise line e :
  load_line line = Raise e ->
  let parts := split line in
  9 < length parts
  /\ (getitem parts 0 ≫= parse_parameters = Raise e
      \/ exists i, 1 <= i <= 13 /\ float_at parts i = Raise e).
Proof.
  rewrite load_line_unfold. cbv zeta.
  destruct (Nat.ltb 9 (length (split line))) eqn:G; [|discriminate].
  apply Nat.ltb_lt in G. intros H. split; [exact G|]. revert H.
  destruct (getitem (split line) 0 ≫= parse_parameters) as [p|];
    [rewrite bind_Ok | intros [= <-]; by left].
  repeat match goal with
  | |- (Loader.float_at _ _ ?i ≫= _) = _ -> _ =>
      destruct (float_at (split line) i) as [?f|] eqn:?;
        [rewrite bind_Ok
        | intros [= <-]; right; exists i; split; [lia | assumption]]
  end.
  discriminate.
Qed.

Lemma token_Ok parts p :
  getitem parts 0 ≫= parse_parameters = Ok p <->
  exists s, parts !! 0 = Some s /\ parse_parameters s = Ok p.
Proof.
  unfold getitem. destruct (parts !! 0) as [s|]; cbn; split.
  - eauto.
  - by intros (s' & [= <-] & Hs).
  - discriminate.
  - intros (s & Hs & _). discriminate.
Qed.

Lemma float_at_length parts i f : float_at parts i = Ok f -> i < length parts.
Proof.
  intros (s & Hs & _)%float_at_Ok. by eapply lookup_lt_Some.
Qed.

(** The well-formed lines are the lines that yield a record. *)
Lemma well_formed_Some line :
  well_formed line = true <-> exists e, load_line line = Ok (Some e).
Proof.
  unfold Loader.well_formed. cbv zeta. split.
  - cbn [seq forallb]. rewrite !andb_true_iff, !is_ok_true, Nat.ltb_lt.
    intros H. destruct_and!.
    repeat match goal with H : exists _, _ |- _ => destruct H as [? H] end.
    rewrite load_line_unfold. cbv zeta.
    replace (Nat.ltb 9 (length (split line))) with true
      by (symmetry; apply Nat.ltb_lt; lia).
    repeat match goal with
    | H : ?m = Ok _ |- context [?m ≫= _] => rewrite H, bind_Ok
    end.
    eauto.
  - intros [e He]. apply load_line_Some in He. cbv zeta in He.
    destruct He as (p & f1 & f2 & f3 & f4 & f5 & f6 & f7 & f8 & f9 & f10
      & f11 & f12 & f13 & H).
    destruct_and!.
    match goal with H : float_at _ 13 = _ |- _ =>
      pose proof (float_at_length _ _ _ H) as Hlen end.
    cbn [seq forallb].
    repeat match goal with H : ?m = Ok _ |- context [is_ok ?m] => rewrite H end.
    cbn [is_ok]. rewrite !andb_true_r. by apply Nat.ltb_lt.
Qed.

Lemma entry_of_field (p : gmap string Value)
    f1 f2 f3 f4 f5 f6 f7 f8 f9 f10 f11 f12 f13 key line i f :
  float_at (split line) i = Ok f ->
  entry_of p f1 f2 f3 f4 f5 f6 f7 f8 f9 f10 f11 f12 f13 !! key
    = Some (PyFloat f) ->
  field_of (entry_of p f1 f2 f3 f4 f5 f6 f7 f8 f9 f10 f11 f12 f13) key line i.
Proof.
  intros (s & Hs & Hf)%float_at_Ok He. exists s, f. auto.
Qed.

(** C3: a well-formed line yields one record whose fields are the
    fields of the split line by fixed position: field 0 through
    [parse_parameters] under ["params"], the fields 1 to 4 as the four
    cost components, 5 to 8 as efficiency, safety, ud and cc, 9 to 13
    as the timing statistics, each through [float]. *)
Theorem load_line_fields line :
  well_formed line = true ->
  exists e,
    load_line line = Ok (Some e)
    /\ (exists s p,
          split line !! 0 = Some s /\ parse_parameters s = Ok p
          /\ e !! "params" = Some (PyParams p))
    /\ field_of e "cost.efficiency" line 1
    /\ field_of e "cost.safety" line 2
    /\ field_of e "cost.accel" line 3
    /\ field_of e "cost.steer" line 4
    /\ field_of e "efficiency" line 5
    /\ field_of e "safety" line 6
    /\ field_of e "ud" line 7
    /\ field_of e "cc" line 8
    /\ field_of e "mean_ts" line 9
    /\ field_of e "95_ts" line 10
    /\ field_of e "997_ts" line 11
    /\ field_of e "max_ts" line 12
    /\ field_of e "stddev_ts" line 13.
Proof.
  intros [e He]%well_formed_Some. exists e. split; [exact He|].
  apply load_line_Some in He. cbv zeta in He.
  destruct He as (p & f1 & f2 & f3 & f4 & f5 & f6 & f7 & f8 & f9 & f10
    & f11 & f12 & f13 & Hp & H1 & H2 & H3 & H4 & H5 & H6 & H7 & H8 & H9
    & H10 & H11 & H12 & H13 & ->).
  split.
  - apply token_Ok in Hp as (s & Hs & Hp). exists s, p.
    repeat split; [assumption..|]. unfold entry_of. by lookups.
  - repeat split;
      (eapply entry_of_field; [eassumption | unfold entry_of; by lookups]).
Qed.

(** *** The loop *)

Lemma load_line_total line :
  load_line line = Ok None
  \/ (exists e, load_line line = Ok (Some e))
  \/ (exists e, load_line line = Raise e).
Proof. destruct (load_line line) as [[e|]|e]; eauto. Qed.

Lemma well_formed_false_None line :
  load_line line = Ok None -> well_formed line = false.
Proof.
  intros H. destruct (well_formed line) eqn:W; [|reflexivity].
  apply well_formed_Some in W as [e He]. congruence.
Qed.

(** The list only grows at its end, by the records of the well-formed
    lines among those scanned, in their order. *)
Lemma load_appends lines (rs : list entry) :
  exists new,
    fst (load lines rs) = rs ++ new
    /\ Forall2 (fun line e => load_line line = Ok (Some e))
         (List.filter well_formed (scanned lines)) new.
Proof.
  revert rs. induction lines as [|line rest IH]; intros rs.
  - exists []. cbn. rewrite app_nil_r. split; [reflexivity | constructor].
  - cbn [Loader.load Loader.scanned].
    destruct (load_line line) as [[e|]|err] eqn:E; cbn [is_ok].
    + destruct (IH (rs ++ [e])) as (new & Hnew & Hall).
      exists (e :: new). split.
      * rewrite Hnew. by rewrite <- app_assoc.
      * cbn [List.filter].
        replace (well_formed line) with true
          by (symmetry; apply well_formed_Some; eauto).
        by constructor.
    + destruct (IH rs) as (new & Hnew & Hall).
      exists new. split; [exact Hnew|].
      cbn [List.filter]. by rewrite (well_formed_false_None _ E).
    + exists []. cbn. rewrite app_nil_r. split; [reflexivity | constructor].
Qed.

Lemma load_no_raise lines (rs : list entry) :
  snd (load lines rs) = None <-> scanned lines = lines.
Proof.
  revert rs. induction lines as [|line rest IH]; intros rs; [done|].
  cbn [Loader.load Loader.scanned].
  destruct (load_line line) as [[e|]|err]; cbn [is_ok].
  - rewrite IH. split; [by intros -> | by intros [= ->]].
  - rewrite IH. split; [by intros -> | by intros [= ->]].
  - split; discriminate.
Qed.

Lemma scanned_prefix lines : scanned lines `prefix_of` lines.
Proof.
  induction lines as [|line rest IH]; cbn; [done|].
  destruct (is_ok (load_line line)).
  - by apply prefix_cons.
  - apply prefix_nil.
Qed.

Lemma load_app l1 l2 (rs : list entry) :
  load (l1 ++ l2) rs =
  match snd (load l1 rs) with
  | None => load l2 (fst (load l1 rs))
  | Some e => load l1 rs
  end.
Proof.
  revert rs. induction l1 as [|line rest IH]; intros rs; [done|].
  cbn [app Loader.load].
  destruct (load_line line) as [[e|]|err]; [apply IH | apply IH | done].
Qed.

Lemma load_prefix lines (rs : list entry) : rs `prefix_of` fst (load lines rs).
Proof.
  destruct (load_appends lines rs) as (new & -> & _). by apply prefix_app_r.
Qed.

Lemma entry_of_cost (p : gmap string Value)
    f1 f2 f3 f4 f5 f6 f7 f8 f9 f10 f11 f12 f13 :
  cost_is_sum (entry_of p f1 f2 f3 f4 f5 f6 f7 f8 f9 f10 f11 f12 f13).
Proof.
  exists f1, f2, f3, f4. unfold entry_of. repeat split; by lookups.
Qed.

Lemma short_line_raises line :
  10 <= length (split line) <= 13 -> exists e, load_line line = Raise e.
Proof.
  intros Hlen. destruct (load_line_total line) as [H | [[e H] | H]].
  - apply load_line_None in H. lia.
  - assert (W : well_formed line = true) by (apply well_formed_Some; eauto).
    unfold Loader.well_formed in W. cbv zeta in W.
    rewrite !andb_true_iff, Nat.ltb_lt in W. lia.
  - exact H.
Qed.

Lemma raise_kind line e :
  load_line line = Raise e ->
  e = IndexError \/ e = ValueError
  \/ getitem (split line) 0 ≫= parse_parameters = Raise e.
Proof.
  intros [_ [H | (i & _ & H)]]%load_line_Raise; [auto|].
  apply float_at_Raise in H as [[_ ->] | (s & _ & _ & ->)]; auto.
Qed.

Lemma raise_kind_long line e :
  13 < length (split line) ->
  load_line line = Raise e ->
  e = ValueError \/ getitem (split line) 0 ≫= parse_parameters = Raise e.
Proof.
  intros Hlen [_ [H | (i & Hi & H)]]%load_line_Raise; [auto|].
  apply float_at_Raise in H as [[Hnone _] | (s & _ & _ & ->)]; [|auto].
  apply lookup_ge_None in Hnone. lia.
Qed.

Lemma bad_float_raises line i s :
  10 <= length (split line) ->
  1 <= i <= 13 -> split line !! i = Some s -> py_float s = None ->
  exists e, load_line line = Raise e.
Proof.
  intros Hlen Hi Hs Hf. destruct (load_line_total line) as [H | [[e H] | H]].
  - apply load_line_None in H. lia.
  - apply load_line_Some in H. cbv zeta in H.
    destruct H as (p & f1 & f2 & f3 & f4 & f5 & f6 & f7 & f8 & f9 & f10
      & f11 & f12 & f13 & H).
    destruct_and!.
    assert (Hc : exists f, float_at (split line) i = Ok f).
    { assert (Hcase : i = 1 \/ i = 2 \/ i = 3 \/ i = 4 \/ i = 5 \/ i = 6
        \/ i = 7 \/ i = 8 \/ i = 9 \/ i = 10 \/ i = 11 \/ i = 12 \/ i = 13)
        by lia.
      destruct_or!; subst i; eauto. }
    destruct Hc as (f & (s' & Hs' & Hf')%float_at_Ok). congruence.
  - exact H.
Qed.

(** C1, as amended: a line with fewer than 10 fields is skipped and the
    loop goes on; a well-formed line yields exactly one record, appended
    to the results, and the loop goes on; a line with at least 14 fields
    that is not well formed ([parse_parameters] raises on its token or
    one of its fields 1 to 13 is no float literal) raises, and the
    exception ends the whole load with the results as they stood. *)
Theorem load_line_outcome line rest (rs : list entry) :
  (length (split line) < 10 ->
     load_line line = Ok None /\ load (line :: rest) rs = load rest rs)
  /\ (well_formed line = true ->
       exists e, load_line line = Ok (Some e)
         /\ load (line :: rest) rs = load rest (rs ++ [e]))
  /\ (13 < length (split line) -> well_formed line = false ->
       exists e, load_line line = Raise e
         /\ (e = ValueError
             \/ getitem (split line) 0 ≫= parse_parameters = Raise e)
         /\ load (line :: rest) rs = (rs, Some e)).
Proof.
  split; [|split].
  - intros Hlen.
    assert (H : load_line line = Ok None) by (apply load_line_None; lia).
    split; [exact H|]. cbn [Loader.load]. by rewrite H.
  - intros [e He]%well_formed_Some. exists e. split; [exact He|].
    cbn [Loader.load]. by rewrite He.
  - intros Hlen W. destruct (load_line_total line) as [H | [H | [e H]]].
    + apply load_line_None in H. lia.
    + apply well_formed_Some in H. congruence.
    + exists e. split; [exact H|]. split.
      * by apply raise_kind_long.
      * cbn [Loader.load]. by rewrite H.
Qed.

(** C2: the guard lets every line with at least 10 fields through; a
    line with 10 to 13 fields then raises, and so does a line with a
    field among 1 to 13 that is no float literal; the exception is
    IndexError or ValueError (or the one [parse_parameters] raised), it
    is not caught, and the load ends there.  Such lines exist. *)
Theorem guard_admits_lines_that_raise :
  (forall line, 10 <= length (split line) -> load_line line <> Ok None)
  /\ (forall line,
        10 <= length (split line) <= 13 ->
        exists e, load_line line = Raise e
          /\ (e = IndexError \/ e = ValueError
              \/ getitem (split line) 0 ≫= parse_parameters = Raise e))
  /\ (forall line i s,
        10 <= length (split line) -> 1 <= i <= 13 ->
        split line !! i = Some s -> py_float s = None ->
        exists e, load_line line = Raise e
          /\ (e = IndexError \/ e = ValueError
              \/ getitem (split line) 0 ≫= parse_parameters = Raise e))
  /\ (forall line e rest (rs : list entry),
        load_line line = Raise e -> load (line :: rest) rs = (rs, Some e))
  /\ (exists line, length (split line) = 10 /\ raises (load_line line)).
Proof.
  split; [|split; [|split; [|split]]].
  - intros line Hlen H. apply load_line_None in H. lia.
  - intros line Hlen. destruct (short_line_raises line Hlen) as [e He].
    exists e. split; [exact He | by apply raise_kind].
  - intros line i s Hlen Hi Hs Hf.
    destruct (bad_float_raises line i s Hlen Hi Hs Hf) as [e He].
    exists e. split; [exact He | by apply raise_kind].
  - intros line e rest rs H. cbn [Loader.load]. by rewrite H.
  - exists "p 1 2 3 4 5 6 7 8 9".
    assert (Hlen : length (split "p 1 2 3 4 5 6 7 8 9") = 10) by reflexivity.
    split; [exact Hlen|]. apply short_line_raises. rewrite Hlen. lia.
Qed.

Lemma load_line_cost line e : load_line line = Ok (Some e) -> cost_is_sum e.
Proof.
  intros H. apply load_line_Some in H. cbv zeta in H.
  destruct H as (p & f1 & f2 & f3 & f4 & f5 & f6 & f7 & f8 & f9 & f10
    & f11 & f12 & f13 & H).
  destruct_and!. subst e. apply entry_of_cost.
Qed.

(** C4: in every record of the results the cost is the sum of the four
    cost components, as computed when the record was built; loading
    further lines leaves the records already in the list as they are. *)
Theorem cost_is_sum_of_components lines :
  Forall cost_is_sum (fst (load lines []))
  /\ forall more, fst (load lines []) `prefix_of` fst (load (lines ++ more) []).
Proof.
  split.
  - destruct (load_appends lines []) as (new & -> & Hall). cbn [app].
    induction Hall as [|line e ls es He _ IH]; constructor.
    + by eapply load_line_cost.
    + exact IH.
  - intros more. rewrite load_app.
    destruct (snd (load lines [])); [done | apply load_prefix].
Qed.

(** C5: a file of three lines, one of them with 8 fields and the other
    two well formed, loads to exactly the two records of the well-formed
    lines, and nothing is raised; any line with fewer than 10 fields is
    passed over without a trace in the results. *)
Theorem basic_load bad good1 good2 lines :
  length (split bad) = 8 ->
  well_formed good1 = true ->
  well_formed good2 = true ->
  lines = [bad; good1; good2] \/ lines = [good1; bad; good2]
    \/ lines = [good1; good2; bad] ->
  (exists e1 e2,
     load_line good1 = Ok (Some e1) /\ load_line good2 = Ok (Some e2)
     /\ load lines [] = ([e1; e2], None))
  /\ forall line rest (rs : list entry),
       length (split line) < 10 -> load (line :: rest) rs = load rest rs.
Proof.
  intros Hbad [e1 H1]%well_formed_Some [e2 H2]%well_formed_Some Hlines.
  assert (Hskip : load_line bad = Ok None) by (apply load_line_None; lia).
  split.
  - exists e1, e2. repeat split; [assumption..|].
    destruct_or!; subst lines; cbn [Loader.load];
      rewrite ?Hskip, ?H1, ?H2; reflexivity.
  - intros line rest rs Hlen. cbn [Loader.load].
    by replace (load_line line) with (@Ok (option entry) None)
      by (symmetry; apply load_line_None; lia).
Qed.


(** *** Further properties of the loader *)

(** What holds of the record of every line holds of every record of
    the results. *)
Lemma loaded_Forall (P : entry -> Prop) lines :
  (forall line e, load_line line = Ok (Some e) -> P e) ->
  Forall P (fst (load lines [])).
Proof.
  intros HP. destruct (load_appends lines []) as (new & -> & Hall).
  cbn [app]. induction Hall as [|line e ls es He _ IH]; constructor; eauto.
Qed.

Lemma getfloat_empty key : getfloat (∅ : entry) key = Raise KeyError.
Proof. unfold getfloat. by rewrite lookup_empty. Qed.

Lemma entry_of_shape (p : gmap string Value)
    f1 f2 f3 f4 f5 f6 f7 f8 f9 f10 f11 f12 f13 :
  let e := entry_of p f1 f2 f3 f4 f5 f6 f7 f8 f9 f10 f11 f12 f13 in
  dom e = list_to_set ("params" :: float_keys)
  /\ e !! "params" = Some (PyParams p)
  /\ Forall (fun key => is_ok (getfloat e key) = true) float_keys.
Proof.
  cbv zeta. unfold entry_of. split; [|split].
  - rewrite !dom_insert_L, dom_empty_L. unfold float_keys.
    cbn [list_to_set]. set_solver.
  - by lookups.
  - unfold float_keys. repeat constructor; by getfloats.
Qed.

(** X1: every record of the results has the same fifteen keys: the
    parameter mapping under ["params"] and a float under each of the
    fourteen metric keys, and no other key. *)
Theorem record_shape lines :
  Forall (fun e =>
            dom e = list_to_set ("params" :: float_keys)
            /\ (exists p, e !! "params" = Some (PyParams p))
            /\ Forall (fun key => is_ok (getfloat e key) = true) float_keys)
    (fst (load lines [])).
Proof.
  apply loaded_Forall. intros line e He.
  apply load_line_Some in He. cbv zeta in He.
  destruct He as (p & f1 & f2 & f3 & f4 & f5 & f6 & f7 & f8 & f9 & f10
    & f11 & f12 & f13 & H).
  destruct_and!. subst e.
  destruct (entry_of_shape p f1 f2 f3 f4 f5 f6 f7 f8 f9 f10 f11 f12 f13)
    as (Hdom & Hp & Hfloats).
  split; [exact Hdom|]. split; [by exists p | exact Hfloats].
Qed.

(** X2: every metric of [plot_metrics] reads as a float in every record
    of the results, and so does every metric of [evaluate_metrics] but
    ["seconds"]: no record has that key, and reading it raises
    KeyError. *)
Theorem metrics_of_records lines :
  Forall (fun e =>
            Forall (fun m => is_ok (getfloat e m) = true) plot_metrics
            /\ Forall (fun m => m <> "seconds" -> is_ok (getfloat e m) = true)
                 evaluate_metrics
            /\ getfloat e "seconds" = Raise KeyError)
    (fst (load lines []))
  /\ "seconds" ∈ evaluate_metrics.
Proof.
  split; [|unfold evaluate_metrics; set_solver].
  apply loaded_Forall. intros line e He.
  apply load_line_Some in He. cbv zeta in He.
  destruct He as (p & f1 & f2 & f3 & f4 & f5 & f6 & f7 & f8 & f9 & f10
    & f11 & f12 & f13 & H).
  destruct_and!. subst e. unfold entry_of, plot_metrics, evaluate_metrics.
  split; [|split].
  - repeat constructor; by getfloats.
  - repeat constructor; try (intros _; by getfloats). by intros [].
  - getfloats. apply getfloat_empty.
Qed.

Lemma float_at_ext parts parts' i :
  parts' !! i = parts !! i -> float_at parts' i = float_at parts i.
Proof. intros H. unfold Loader.float_at, getitem. by rewrite H. Qed.

Lemma take_lookup_eq {A} (l l' : list A) n i :
  take n l' = take n l -> i < n -> l' !! i = l !! i.
Proof.
  intros H Hi.
  rewrite <- (lookup_take_lt l' n i), <- (lookup_take_lt l n i) by exact Hi.
  by rewrite H.
Qed.

(** X3: the fields after the fourteenth are never read: two lines with
    at least 14 fields and the same first 14 load to the same record, or
    raise the same exception. *)
Theorem extra_fields_ignored line line' :
  13 < length (split line) ->
  take 14 (split line') = take 14 (split line) ->
  load_line line' = load_line line.
Proof.
  intros Hlen Htake.
  assert (Hlen' : 13 < length (split line')).
  { apply (f_equal length) in Htake. rewrite !length_take in Htake. lia. }
  rewrite !load_line_unfold. cbv zeta.
  replace (Nat.ltb 9 (length (split line'))) with true
    by (symmetry; apply Nat.ltb_lt; lia).
  replace (Nat.ltb 9 (length (split line))) with true
    by (symmetry; apply Nat.ltb_lt; lia).
  assert (Hget : getitem (split line') 0 = getitem (split line) 0).
  { unfold getitem. by rewrite (take_lookup_eq _ _ 14 0 Htake) by lia. }
  rewrite Hget.
  by rewrite !(float_at_ext (split line) (split line'))
    by (apply (take_lookup_eq _ _ 14); [exact Htake | lia]).
Qed.

(** X4: a blank line, empty or of white space only, is skipped: the
    loop goes on with the results as they are. *)
Theorem blank_line_skipped line rest (rs : list entry) :
  all_space line = true ->
  load_line line = Ok None /\ load (line :: rest) rs = load rest rs.
Proof.
  intros Hblank.
  assert (H : load_line line = Ok None).
  { apply load_line_None. rewrite (split_blank _ Hblank). cbn. lia. }
  split; [exact H|]. cbn [Loader.load]. by rewrite H.
Qed.

(** X5: the exception a line raises is that of the first read that
    fails, in the order of the source: the token through
    [parse_parameters], then the fields 5 to 13, then the fields 1 to
    4. *)
Theorem first_failure_raised line e :
  9 < length (split line) ->
  (getitem (split line) 0 ≫= parse_parameters = Raise e ->
     load_line line = Raise e)
  /\ (forall pre i post,
        is_ok (getitem (split line) 0 ≫= parse_parameters) = true ->
        float_reads = pre ++ i :: post ->
        Forall (fun j => is_ok (float_at (split line) j) = true) pre ->
        float_at (split line) i = Raise e ->
        load_line line = Raise e).
Proof.
  intros Hlen. rewrite load_line_unfold. cbv zeta.
  replace (Nat.ltb 9 (length (split line))) with true
    by (symmetry; by apply Nat.ltb_lt).
  split; [by intros ->|].
  intros pre i post [p ->]%is_ok_true Hreads Hpre Hi. rewrite bind_Ok.
  unfold float_reads in Hreads.
  do 13 (destruct pre as [|j pre];
    [ cbn in Hreads; injection Hreads as <- _; by rewrite Hi
    | cbn in Hreads; injection Hreads as <- Hreads;
      apply Forall_cons in Hpre as [Hj Hpre];
      apply is_ok_true in Hj as [? Hj]; rewrite Hj, bind_Ok; clear Hj ]).
  by destruct pre.
Qed.

Lemma load_from lines (rs : list entry) :
  load lines rs = (rs ++ fst (load lines []), snd (load lines [])).
Proof.
  revert rs. induction lines as [|line rest IH]; intros rs.
  - cbn. by rewrite app_nil_r.
  - cbn [Loader.load]. destruct (load_line line) as [[e|]|err].
    + rewrite (IH (rs ++ [e])), (IH ([] ++ [e])). cbn [fst snd app].
      by rewrite <- app_assoc.
    + apply IH.
    + cbn. by rewrite app_nil_r.
Qed.

(** X6: loading two files one after the other is loading their
    concatenation: when the first raises nothing, the results are those
    of the first followed by those of the second, and the outcome is
    that of the second; when the first raises, the second is never
    read. *)
Theorem load_concat l1 l2 :
  (snd (load l1 []) = None ->
     load (l1 ++ l2) []
     = (fst (load l1 []) ++ fst (load l2 []), snd (load l2 [])))
  /\ (forall e, snd (load l1 []) = Some e -> load (l1 ++ l2) [] = load l1 []).
Proof.
  rewrite load_app. split.
  - intros ->. apply load_from.
  - by intros e ->.
Qed.

(** X7: there are never more records than lines, and when nothing is
    raised there are exactly as many records as well-formed lines. *)
Theorem loaded_count lines :
  length (fst (load lines [])) <= length lines
  /\ (snd (load lines []) = None ->
       length (fst (load lines [])) = length (List.filter well_formed lines)).
Proof.
  destruct (load_appends lines []) as (new & Hnew & Hall).
  rewrite Hnew. cbn [app]. apply Forall2_length in Hall. rewrite <- Hall.
  split.
  - pose proof (filter_length_le well_formed (scanned lines)).
    pose proof (prefix_length _ _ (scanned_prefix lines)). lia.
  - intros Hnone. apply load_no_raise in Hnone. by rewrite Hnone.
Qed.

End LoaderTheory.

(** * Properties of the label table *)

(** A key that is not assigned keeps what the dictionary held. *)
Lemma assign_other (l : list (option string * string)) d key :
  key ∉ l.*1 -> fold_left setitem l d !! key = d !! key.
Proof.
  revert d. induction l as [|[k v] l IH]; intros d Hkey; [reflexivity|].
  cbn [fold_left]. apply not_elem_of_cons in Hkey as [Hne Hkey].
  rewrite (IH _ Hkey). unfold setitem. cbn. by rewrite lookup_insert_ne.
Qed.

(** When no key is assigned twice, every assignment is read back. *)
Lemma assign_read_back (l : list (option string * string)) d key label :
  NoDup l.*1 -> (key, label) ∈ l ->
  fold_left setitem l d !! key = Some label.
Proof.
  revert d. induction l as [|[k v] l IH]; intros d Hnodup Hin.
  - by apply elem_of_nil in Hin.
  - cbn [fold_left]. apply NoDup_cons in Hnodup as [Hk Hnodup].
    apply elem_of_cons in Hin as [[= -> ->] | Hin].
    + rewrite (assign_other _ _ _ Hk). unfold setitem. cbn.
      apply lookup_insert_eq.
    + by apply IH.
Qed.

(** X9: no key of [t10s] is assigned twice, so the label of every one
    of the 31 assignments is the one read back; the key [None] reads
    "Average", and every metric of [plot_metrics] has a label. *)
Theorem t10s_reads_back :
  NoDup t10s_assignments.*1
  /\ (forall key label,
        (key, label) ∈ t10s_assignments -> t10s !! key = Some label)
  /\ t10s !! None = Some "Average"
  /\ Forall (fun m => is_Some (t10s !! Some m)) plot_metrics.
Proof.
  assert (Hnodup : NoDup t10s_assignments.*1).
  { apply (bool_decide_unpack _). vm_compute. reflexivity. }
  assert (Hread : forall key label,
            (key, label) ∈ t10s_assignments -> t10s !! key = Some label).
  { intros key label. by apply assign_read_back. }
  split; [exact Hnodup|]. split; [exact Hread|]. split.
  - apply Hread. apply (list_elem_of_lookup_2 _ 30). reflexivity.
  - unfold plot_metrics. repeat constructor.
    + exists "Cost". apply Hread.
      apply (list_elem_of_lookup_2 _ 3). reflexivity.
    + exists "Safety cost". apply Hread.
      apply (list_elem_of_lookup_2 _ 2). reflexivity.
    + exists "Efficiency". apply Hread.
      apply (list_elem_of_lookup_2 _ 4). reflexivity.
Qed.

(** * Properties of the record queries *)

Section QueriesTheory.
Context {Value : Type}.
Variable num_le : Value -> Value -> option bool.
Variable canon_eqb : Value -> Value -> bool.

Abbreviation entry := (gmap string (pyval Value)).
Abbreviation condition := (string * Value)%type.
Abbreviation matches_one := (CommonPlot.matches_one num_le canon_eqb).
Abbreviation matches := (CommonPlot.matches num_le canon_eqb).
Abbreviation filter_loop := (CommonPlot.filter_loop num_le canon_eqb).
Abbreviation filter_extra := (CommonPlot.filter_extra num_le canon_eqb).

Lemma strip_prefix_app p key : strip_prefix p (p +:+ key) = Some key.
Proof.
  induction p as [|a p IH]; [reflexivity|].
  change (String a p +:+ key) with (String a (p +:+ key)).
  cbn [strip_prefix]. by rewrite Ascii.eqb_refl.
Qed.

Lemma matches_max (r : entry) x b :
  matches r [("max." +:+ x, b)] =
  match params_of r !! x with
  | Some v => match num_le v b with Some c => c | None => false end
  | None => false
  end.
Proof.
  unfold CommonPlot.matches, CommonPlot.matches_one.
  rewrite strip_prefix_app.
  destruct (params_of r !! x) as [v|]; [|reflexivity].
  by destruct (num_le v b) as [[]|].
Qed.

Lemma filter_loop_spec records conditions (out : list entry) :
  filter_loop records conditions out =
  out ++ List.filter (fun r => matches r conditions) records.
Proof.
  revert out. induction records as [|r rest IH]; intros out; cbn.
  - by rewrite app_nil_r.
  - rewrite IH. destruct (matches r conditions); [|reflexivity].
    by rewrite <- app_assoc.
Qed.

Lemma filter_sublist {A} (f : A -> bool) l : List.filter f l `sublist_of` l.
Proof.
  induction l as [|x l IH]; cbn; [constructor|].
  destruct (f x); by constructor.
Qed.

Lemma filter_extra_filter (records : list entry) conditions :
  filter_extra records conditions
  = List.filter (fun r => matches r conditions) records.
Proof. unfold CommonPlot.filter_extra. by rewrite filter_loop_spec. Qed.

(** C7: the bulk filter returns the records that match, each where it
    stood relative to the others: its result is the input with the
    records that do not match struck out.  With no condition it returns
    every record. *)
Theorem filter_extra_correct (records : list entry) conditions :
  filter_extra records conditions
    = List.filter (fun r => matches r conditions) records
  /\ filter_extra records conditions `sublist_of` records
  /\ (forall r, r ∈ filter_extra records conditions <->
        r ∈ records /\ matches r conditions = true)
  /\ filter_extra records [] = records.
Proof.
  pose proof (filter_extra_filter records) as H.
  split; [apply H | split; [|split]].
  - rewrite H. apply filter_sublist.
  - intros r. rewrite H, !list_elem_of_In. apply filter_In.
  - rewrite H. clear H.
    change (List.filter (fun _ : entry => true) records = records).
    induction records as [|r rest IH]; cbn; congruence.
Qed.

End QueriesTheory.

(** * Properties of the [max.] conditions *)

Section MaxBound.
Variable canon_eqb : value -> value -> bool.

Abbreviation max_matches r x b :=
  (CommonPlot.matches num_le canon_eqb r [("max." +:+ x, b)]).

Lemma Qval_scale m e k :
  (k <= e)%Z -> (Qval m e == inject_Z (m * 2 ^ (e - k)) * 2 ^ k)%Q.
Proof.
  intros Hk. unfold Qval.
  rewrite inject_Z_mult, Zpower_Qpower by lia.
  change (inject_Z 2) with 2%Q.
  rewrite <- Qmult_assoc, <- Qpower_plus by discriminate.
  by replace (e - k + k)%Z with e by lia.
Qed.

Lemma dyadic_leb_le m1 e1 m2 e2 :
  dyadic_leb m1 e1 m2 e2 = true <-> (Qval m1 e1 <= Qval m2 e2)%Q.
Proof.
  unfold dyadic_leb. cbv zeta. set (k := Z.min e1 e2).
  rewrite (Qval_scale m1 e1 k), (Qval_scale m2 e2 k) by lia.
  rewrite Qmult_le_r by (by apply Qpower_0_lt).
  rewrite <- Zle_Qle. apply Z.leb_le.
Qed.

Lemma number_leb_le a b : number_leb a b = true <-> number_le a b.
Proof.
  destruct a as [|[]|m1 e1], b as [|[]|m2 e2]; cbn;
    try apply dyadic_leb_le; split; try done.
Qed.

Lemma dyadic_leb_int s t : dyadic_leb s 0 t 0 = true <-> (s <= t)%Z.
Proof.
  unfold dyadic_leb. cbn. rewrite !Z.mul_1_r. apply Z.leb_le.
Qed.

Lemma max_matches_params (r : gmap string (pyval value)) p x b :
  r !! "params" = Some (PyParams p) ->
  max_matches r x b =
  match p !! x with
  | Some v => match num_le v b with Some c => c | None => false end
  | None => false
  end.
Proof.
  intros Hp. rewrite matches_max. unfold params_of. by rewrite Hp.
Qed.

(** C6: a record matches the single condition [("max.x", b)] exactly
    when its parameter mapping stores under [x] a number that is at most
    the number [b]: for integers [s <= t], and for integers and floats
    alike the order of their exact values.  A record whose parameters
    lack the key [x] does not match, and neither does one whose stored
    value, or whose bound, is no number: the check answers false. *)
Theorem max_bound_semantics (r : gmap string (pyval value)) x b :
  (max_matches r x b = true <->
     exists p v n m,
       r !! "params" = Some (PyParams p) /\ p !! x = Some v
       /\ number_of v = Some n /\ number_of b = Some m /\ number_le n m)
  /\ (forall p s t,
        r !! "params" = Some (PyParams p) -> p !! x = Some (VInt s) ->
        b = VInt t ->
        (max_matches r x b = true <-> (s <= t)%Z))
  /\ (forall p,
        r !! "params" = Some (PyParams p) -> p !! x = None ->
        max_matches r x b = false)
  /\ (forall p v,
        r !! "params" = Some (PyParams p) -> p !! x = Some v ->
        number_of v = None \/ number_of b = None ->
        max_matches r x b = false).
Proof.
  split; [|split; [|split]].
  - split.
    + intros H. rewrite matches_max in H. unfold params_of in H.
      destruct (r !! "params") as [[p|f]|] eqn:Hp;
        [|by rewrite lookup_empty in H..].
      destruct (p !! x) as [v|] eqn:Hv; [|discriminate].
      unfold num_le in H.
      destruct (number_of v) as [n|] eqn:Hn; [|discriminate].
      destruct (number_of b) as [m|] eqn:Hm; [|discriminate].
      exists p, v, n, m. repeat split; try done. by apply number_leb_le.
    + intros (p & v & n & m & Hp & Hv & Hn & Hm & Hle).
      rewrite (max_matches_params r p x b Hp), Hv. unfold num_le.
      rewrite Hn, Hm. by apply number_leb_le.
  - intros p s t Hp Hv ->.
    rewrite (max_matches_params r p x _ Hp), Hv. cbn.
    apply dyadic_leb_int.
  - intros p Hp Hv. by rewrite (max_matches_params r p x b Hp), Hv.
  - intros p v Hp Hv Hnone.
    rewrite (max_matches_params r p x b Hp), Hv. unfold num_le.
    destruct Hnone as [-> | Hb]; [done|].
    rewrite Hb. by destruct (number_of v).
Qed.

End MaxBound.

(** * Closed examples

    The theorems above at the lines and records of [Sample]. *)

Section Examples.
Import Sample.

Abbreviation sample_load_line := (Loader.load_line keep_token decimal_float).
Abbreviation sample_load := (Loader.load keep_token decimal_float).
Abbreviation sample_well_formed :=
  (Loader.well_formed keep_token decimal_float).
Abbreviation sample_matches := (CommonPlot.matches int_le canon_eqb).

Example split_good1 :
  split good1
  = [",method=mcts,use_cfb=false,samples_n=8,rng_seed=5,"; "427.5"; "12.25";
     "3"; "0.5"; "6.206"; "0.003439"; "1"; "2"; "0.01"; "0.02"; "0.03";
     "0.04"; "0.005"].
Proof. vm_compute. reflexivity. Qed.

Example cost_good1 :
  (sample_load_line good1 ≫= fun e => Ok (e ≫= (.!! "cost")))
  = Ok (Some (PyFloat 443.25)).
Proof. vm_compute. reflexivity. Qed.

(** A well-formed line between two others is read field by field. *)
Lemma load_line_fields_witness :
  sample_well_formed good1 = true
  /\ exists e, sample_load_line good1 = Ok (Some e)
       /\ Loader.field_of decimal_float e "cost.efficiency" good1 1
       /\ Loader.field_of decimal_float e "stddev_ts" good1 13.
Proof.
  split; [vm_compute; reflexivity|].
  destruct (load_line_fields keep_token decimal_float good1)
    as (e & He & _ & H1 & H); [vm_compute; reflexivity|].
  exists e. split; [exact He|]. split; [exact H1 | apply H].
Defined.

(** The amended C1 at the three kinds of line. *)
Lemma load_line_outcome_witness :
  length (split short8) < 10
  /\ sample_load [short8; good2] [] = sample_load [good2] []
  /\ (exists e, sample_load_line good1 = Ok (Some e)
        /\ sample_load [good1; good2] [] = sample_load [good2] [e])
  /\ exists e, sample_load_line bad_float = Raise e
       /\ sample_load [bad_float; good2] [] = ([], Some e).
Proof.
  assert (Hshort : length (split short8) < 10) by (vm_compute; lia).
  assert (Hlong : 13 < length (split bad_float)) by (vm_compute; lia).
  assert (Hgood : sample_well_formed good1 = true)
    by (vm_compute; reflexivity).
  assert (Hbad : sample_well_formed bad_float = false)
    by (vm_compute; reflexivity).
  split; [exact Hshort|]. split; [|split].
  - exact (proj2 (proj1 (load_line_outcome keep_token decimal_float
                           short8 [good2] []) Hshort)).
  - exact (proj1 (proj2 (load_line_outcome keep_token decimal_float
                           good1 [good2] [])) Hgood).
  - destruct (proj2 (proj2 (load_line_outcome keep_token decimal_float
                              bad_float [good2] [])) Hlong Hbad)
      as (e & He & _ & Hload).
    exists e. split; [exact He | exact Hload].
Defined.

(** The whole load ends at a line with a field that is no number: the
    record of the line before it is all that was loaded, and the
    well-formed line after it is never read. *)
Lemma load_aborts_on_bad_float :
  snd (sample_load [good1; bad_float; good2] []) = Some ValueError
  /\ length (fst (sample_load [good1; bad_float; good2] [])) = 1.
Proof. split; vm_compute; reflexivity. Qed.

(** A line with ten fields passes the guard and raises. *)
Lemma guard_admits_lines_that_raise_witness :
  10 <= length (split short10) <= 13
  /\ exists e, sample_load_line short10 = Raise e
       /\ (e = IndexError \/ e = ValueError
           \/ getitem (split short10) 0 ≫= keep_token = Raise e).
Proof.
  assert (Hlen : 10 <= length (split short10) <= 13) by (vm_compute; lia).
  split; [exact Hlen|].
  exact (proj1 (proj2 (guard_admits_lines_that_raise
                         keep_token decimal_float)) short10 Hlen).
Defined.

Example short10_IndexError :
  snd (sample_load [good1; short10; good2] []) = Some IndexError
  /\ length (fst (sample_load [good1; short10; good2] [])) = 1.
Proof. split; vm_compute; reflexivity. Qed.

(** Three lines, the one in the middle with 8 fields: two records. *)
Lemma basic_load_witness :
  length (split short8) = 8
  /\ sample_well_formed good1 = true
  /\ sample_well_formed good2 = true
  /\ exists e1 e2, sample_load [good1; short8; good2] [] = ([e1; e2], None).
Proof.
  assert (H8 : length (split short8) = 8) by (vm_compute; reflexivity).
  assert (W1 : sample_well_formed good1 = true) by (vm_compute; reflexivity).
  assert (W2 : sample_well_formed good2 = true) by (vm_compute; reflexivity).
  split; [exact H8|]. split; [exact W1|]. split; [exact W2|].
  destruct (basic_load keep_token decimal_float short8 good1 good2
              [good1; short8; good2] H8 W1 W2)
    as [(e1 & e2 & _ & _ & Hload) _]; [right; left; reflexivity|].
  by exists e1, e2.
Defined.

Example max_rng_seed :
  map (fun r => sample_matches r [("max.rng_seed", VInt 2047)]) records
  = [true; true; false; false].
Proof. vm_compute. reflexivity. Qed.

(** Seeds against the bound 2047: integers, floats, a string. *)
Example max_rng_seed_numbers :
  map (fun seed =>
         CommonPlot.matches Values.num_le (fun _ _ => false) (seeded seed)
           [("max.rng_seed", Values.VInt 2047)])
    [Values.VInt 5; Values.VInt 2047; Values.VInt 2048;
     Values.VFloat 2046.5; Values.VFloat 2047.5; Values.VFloat nan;
     Values.VFloat neg_infinity; Values.VStr "5"]
  = [true; true; false; true; false; false; true; false].
Proof. vm_compute. reflexivity. Qed.

(** An integer bound against a float, and a float bound. *)
Example max_mixed_numbers :
  map (fun '(stored, bound) =>
         CommonPlot.matches Values.num_le (fun _ _ => false) (seeded stored)
           [("max.rng_seed", bound)])
    [(Values.VInt 1, Values.VFloat 0.5); (Values.VInt 0, Values.VFloat 0.5);
     (Values.VFloat 0.25, Values.VFloat 0.5);
     (Values.VInt 9007199254740993, Values.VFloat 9007199254740992);
     (Values.VInt 5, Values.VStr "2047")]
  = [false; true; true; false; false].
Proof. vm_compute. reflexivity. Qed.

(** The seed 5 is at most 2047, the seed 4000 is not. *)
Lemma max_bound_semantics_witness :
  seeded (Values.VInt 5) !! "params"
    = Some (PyParams {[ "rng_seed" := Values.VInt 5 ]})
  /\ CommonPlot.matches Values.num_le (fun _ _ => false)
       (seeded (Values.VInt 5)) [("max.rng_seed", Values.VInt 2047)] = true
  /\ CommonPlot.matches Values.num_le (fun _ _ => false)
       (seeded (Values.VInt 4000)) [("max.rng_seed", Values.VInt 2047)]
     <> true.
Proof.
  split; [reflexivity|]. split.
  - apply (proj1 (proj2 (max_bound_semantics (fun _ _ => false)
                           (seeded (Values.VInt 5)) "rng_seed"
                           (Values.VInt 2047)))
             {[ "rng_seed" := Values.VInt 5 ]} 5%Z 2047%Z);
      [reflexivity | reflexivity | reflexivity | lia].
  - intros H.
    apply (proj1 (proj2 (max_bound_semantics (fun _ _ => false)
                           (seeded (Values.VInt 4000)) "rng_seed"
                           (Values.VInt 2047)))
             {[ "rng_seed" := Values.VInt 4000 ]} 4000%Z 2047%Z) in H;
      [lia | reflexivity | reflexivity | reflexivity].
Defined.

Example filter_fixed :
  map (fun r => getfloat r "cost")
    (CommonPlot.filter_extra int_le canon_eqb records
       [("method", VStr "fixed")])
  = [Ok 10; Ok 30; Ok 40]%float.
Proof. vm_compute. reflexivity. Qed.

(** The fields of [good1], written out and read back. *)
Lemma split_unwords_witness :
  let fields :=
    [",method=mcts,use_cfb=false,samples_n=8,rng_seed=5,"; "427.5"; "12.25";
     "3"; "0.5"; "6.206"; "0.003439"; "1"; "2"; "0.01"; "0.02"; "0.03";
     "0.04"; "0.005"] in
  all_space nl = true
  /\ unwords fields +:+ nl = good1
  /\ split (unwords fields +:+ nl) = fields.
Proof.
  cbv zeta. split; [reflexivity|]. split; [reflexivity|].
  apply split_unwords; [|reflexivity].
  repeat (constructor; [split; [discriminate | reflexivity]|]).
  constructor.
Defined.

(** Two more fields at the end of a line change nothing. *)
Lemma extra_fields_ignored_witness :
  13 < length (split good1)
  /\ take 14 (split good1_more) = take 14 (split good1)
  /\ sample_load_line good1_more = sample_load_line good1.
Proof.
  assert (Hlen : 13 < length (split good1)) by (vm_compute; lia).
  assert (Htake : take 14 (split good1_more) = take 14 (split good1))
    by (vm_compute; reflexivity).
  split; [exact Hlen|]. split; [exact Htake|].
  exact (extra_fields_ignored keep_token decimal_float good1 good1_more
           Hlen Htake).
Defined.

(** A blank line before a record. *)
Lemma blank_line_skipped_witness :
  all_space blank = true
  /\ sample_load [blank; good1] [] = sample_load [good1] [].
Proof.
  assert (Hblank : all_space blank = true) by (vm_compute; reflexivity).
  split; [exact Hblank|].
  exact (proj2 (blank_line_skipped keep_token decimal_float
                  blank [good1] [] Hblank)).
Defined.

(** Ten fields: the reads of the fields 5 to 9 succeed, that of field
    10 is out of range. *)
Lemma first_failure_raised_witness :
  9 < length (split short10)
  /\ float_reads = [5; 6; 7; 8; 9] ++ 10 :: [11; 12; 13; 1; 2; 3; 4]
  /\ sample_load_line short10 = Raise IndexError.
Proof.
  assert (Hlen : 9 < length (split short10)) by (vm_compute; lia).
  split; [exact Hlen|]. split; [reflexivity|].
  apply (proj2 (first_failure_raised keep_token decimal_float
                  short10 IndexError Hlen)
           [5; 6; 7; 8; 9] 10 [11; 12; 13; 1; 2; 3; 4]).
  - vm_compute. reflexivity.
  - reflexivity.
  - repeat (constructor; [vm_compute; reflexivity|]). constructor.
  - vm_compute. reflexivity.
Defined.

Example seconds_missing :
  (sample_load_line good1 ≫= fun e =>
     Ok (e ≫= fun e => Some (map (fun m => is_ok (getfloat e m))
                               evaluate_metrics)))
  = Ok (Some [true; true; true; true; true; true; true; false]).
Proof. vm_compute. reflexivity. Qed.

End Examples.
